(** * Daemonization of a Python process (libs/daemon.py)

    A shallow embedding of [daemonize], [_fork] and
    [_redirectFileDescriptors] over a small model of a POSIX process:
    the program is written in a monad that threads the process state,
    propagates Python exceptions, stops at [os._exit] and branches at
    [os.fork] into the parent and the child. *)

From stdpp Require Import base option list gmap strings pretty.

Set Default Proof Using "Type".
Open Scope Z_scope.

(** ** Python exceptions

    Only instances of [Exception] are modelled: they are what the operating
    system interface raises.  [BaseException]s outside [Exception]
    ([KeyboardInterrupt], [SystemExit]) are asynchronous and left out. *)

Inductive PyErr : Type :=
  | OSError (errno : Z) (strerror : string)
  | DaemonError (error_message : string)
  | OtherError (cls : string) (msg : string).


Definition isinstance_OSError (e : PyErr) : bool :=
  match e with OSError _ _ => true | _ => false end.

(** Every exception of the model is an instance of [Exception], so an
    [except Exception] clause and a bare [except:] clause take them all. *)
Definition isinstance_Exception (e : PyErr) : bool := true.

(** A bare [except:] clause. *)
Definition isinstance_any (e : PyErr) : bool := true.

(** ** The process *)

Inductive Handler : Type := SIG_DFL | SIG_IGN | PyHandler (name : string).

(** An entry of the descriptor table: what the descriptor refers to. *)
Inductive File : Type :=
  | Terminal (name : string)
  | NonTerminal (path : string).

Definition is_terminal (f : option File) : bool :=
  match f with Some (Terminal _) => true | _ => false end.

(** The calls the program makes to the operating system. *)
Inductive Call : Type :=
  | Fork
  | Exit_ (status : Z)
  | Setsid
  | Signal (signum : Z) (handler : Handler)
  | Umask (mask : Z)
  | Chdir (path : string)
  | Getrlimit
  | Ttyname (fd : nat)
  | Close (fd : nat)
  | Open (path : string) (flags : Z)
  | Dup2 (fd fd2 : nat).

Inductive Level : Type := INFO | WARNING.

Record LogRecord : Type := {
  logger : string;
  level : Level;
  message : string
}.

(** What a run cannot change: the platform, and the environment's choices
    (which call fails at which moment, which pid a child receives). *)
Record Env : Type := {
  os_name : string;
  os_devnull : option string;
  RLIM_INFINITY : Z;
  fault : nat -> Call -> option PyErr;
  child_pid : nat -> positive
}.

Record Proc : Type := {
  env : Env;
  pid : Z;
  ppid : Z;
  sid : Z;
  ctty : option string;
  sighandlers : gmap Z Handler;
  umask : Z;
  cwd : string;
  rlimit_nofile : Z * Z;
  fds : gmap nat File;
  trace : list Call;
  logged : list LogRecord
}.

Definition set_ids (new_pid new_ppid : Z) (p : Proc) : Proc :=
  {| env := env p; pid := new_pid; ppid := new_ppid; sid := sid p;
     ctty := ctty p; sighandlers := sighandlers p; umask := umask p;
     cwd := cwd p; rlimit_nofile := rlimit_nofile p; fds := fds p;
     trace := trace p; logged := logged p |}.

Definition set_session (new_sid : Z) (new_ctty : option string) (p : Proc) : Proc :=
  {| env := env p; pid := pid p; ppid := ppid p; sid := new_sid;
     ctty := new_ctty; sighandlers := sighandlers p; umask := umask p;
     cwd := cwd p; rlimit_nofile := rlimit_nofile p; fds := fds p;
     trace := trace p; logged := logged p |}.

Definition set_sighandlers (h : gmap Z Handler) (p : Proc) : Proc :=
  {| env := env p; pid := pid p; ppid := ppid p; sid := sid p;
     ctty := ctty p; sighandlers := h; umask := umask p;
     cwd := cwd p; rlimit_nofile := rlimit_nofile p; fds := fds p;
     trace := trace p; logged := logged p |}.

Definition set_umask (mask : Z) (p : Proc) : Proc :=
  {| env := env p; pid := pid p; ppid := ppid p; sid := sid p;
     ctty := ctty p; sighandlers := sighandlers p; umask := mask;
     cwd := cwd p; rlimit_nofile := rlimit_nofile p; fds := fds p;
     trace := trace p; logged := logged p |}.

Definition set_cwd (path : string) (p : Proc) : Proc :=
  {| env := env p; pid := pid p; ppid := ppid p; sid := sid p;
     ctty := ctty p; sighandlers := sighandlers p; umask := umask p;
     cwd := path; rlimit_nofile := rlimit_nofile p; fds := fds p;
     trace := trace p; logged := logged p |}.

Definition set_fds (t : gmap nat File) (p : Proc) : Proc :=
  {| env := env p; pid := pid p; ppid := ppid p; sid := sid p;
     ctty := ctty p; sighandlers := sighandlers p; umask := umask p;
     cwd := cwd p; rlimit_nofile := rlimit_nofile p; fds := t;
     trace := trace p; logged := logged p |}.

Definition set_trace (t : list Call) (p : Proc) : Proc :=
  {| env := env p; pid := pid p; ppid := ppid p; sid := sid p;
     ctty := ctty p; sighandlers := sighandlers p; umask := umask p;
     cwd := cwd p; rlimit_nofile := rlimit_nofile p; fds := fds p;
     trace := t; logged := logged p |}.

Definition set_logged (l : list LogRecord) (p : Proc) : Proc :=
  {| env := env p; pid := pid p; ppid := ppid p; sid := sid p;
     ctty := ctty p; sighandlers := sighandlers p; umask := umask p;
     cwd := cwd p; rlimit_nofile := rlimit_nofile p; fds := fds p;
     trace := trace p; logged := l |}.

(** The moment of the next call: the number of calls made so far. *)
Definition now (p : Proc) : nat := length (trace p).

Definition called (c : Call) (p : Proc) : Proc := set_trace (trace p ++ [c]) p.

(** ** The monad of Python code

    A computation ends in each process it runs in: by returning a value,
    by raising, or by leaving through [os._exit]. *)

Inductive Outcome (A : Type) : Type :=
  | Ret (a : A)
  | Raise (e : PyErr)
  | Exited (status : Z).
Arguments Ret {A} a.
Arguments Raise {A} e.
Arguments Exited {A} status.

Definition Py (A : Type) : Type := Proc -> list (Outcome A * Proc).

Definition ret {A} (a : A) : Py A := fun p => [(Ret a, p)].

Definition raise {A} (e : PyErr) : Py A := fun p => [(Raise e, p)].

Definition continue_with {A B} (f : A -> Py B) (r : Outcome A * Proc)
  : list (Outcome B * Proc) :=
  match r.1 with
  | Ret a => f a r.2
  | Raise e => [(Raise e, r.2)]
  | Exited s => [(Exited s, r.2)]
  end.

Definition bind {A B} (m : Py A) (f : A -> Py B) : Py B :=
  fun p => concat (map (continue_with f) (m p)).

Notation "x <- m ;; k" := (bind m (fun x => k))
  (at level 100, m at next level, right associativity).
Notation "m ;;; k" := (bind m (fun _ => k))
  (at level 100, right associativity).

(** [try: m  except cls1 as e: h1 e  except cls2 as e: h2 e ...]: the first
    clause whose class the exception is an instance of handles it; an
    exception raised by a handler is not offered to the other clauses. *)
Definition Clause (A : Type) : Type := ((PyErr -> bool) * (PyErr -> Py A))%type.

Fixpoint dispatch {A} (clauses : list (Clause A)) (e : PyErr) : Py A :=
  match clauses with
  | [] => raise e
  | (cls, h) :: rest => if cls e then h e else dispatch rest e
  end.

Definition handle_with {A} (clauses : list (Clause A)) (r : Outcome A * Proc)
  : list (Outcome A * Proc) :=
  match r.1 with
  | Raise e => dispatch clauses e r.2
  | _ => [r]
  end.

Definition try_except {A} (m : Py A) (clauses : list (Clause A)) : Py A :=
  fun p => concat (map (handle_with clauses) (m p)).

(** [for x in l: body x] *)
Fixpoint for_in {A} (l : list A) (body : A -> Py unit) : Py unit :=
  match l with
  | [] => ret tt
  | x :: rest => body x ;;; for_in rest body
  end.

(** [range(lo, hi)] for a non-negative [lo]. *)
Definition range (lo : nat) (hi : Z) : list nat := seq lo (Z.to_nat hi - lo)%nat.

(** ** The operating system interface

    Every call is recorded in the trace.  The environment may make any call
    fail at any moment with any exception; a call it lets through acts on
    the process as the system call does. *)

Definition syscall {A} (c : Call) (effect : Proc -> Outcome A * Proc) : Py A :=
  fun p =>
    match fault (env p) (now p) c with
    | Some e => [(Raise e, called c p)]
    | None => [effect (called c p)]
    end.

Definition EBADF : Z := 9.
Definition ENOTTY : Z := 25.
Definition SIGHUP : Z := 1.
Definition O_RDWR : Z := 2.

(** [os.fork()]: returns the child's pid in the parent and 0 in the child,
    which starts as a copy of the parent. *)
Definition os_fork : Py Z :=
  fun p =>
    match fault (env p) (now p) Fork with
    | Some e => [(Raise e, called Fork p)]
    | None =>
        let child := Z.pos (child_pid (env p) (now p)) in
        [(Ret child, called Fork p);
         (Ret 0, set_ids child (pid p) (called Fork p))]
    end.

(** [os._exit(status)]: the process ends at once; no exception is raised,
    so no handler and no exit hook of the interpreter runs. *)
Definition os__exit {A} (status : Z) : Py A :=
  fun p => [(Exited status, called (Exit_ status) p)].

(** [os.setsid()]: the process leads a new session without a terminal. *)
Definition os_setsid : Py unit :=
  syscall Setsid (fun p => (Ret tt, set_session (pid p) None p)).

(** [signal.signal(signum, handler)] returns the previous handler. *)
Definition signal_signal (signum : Z) (handler : Handler) : Py Handler :=
  syscall (Signal signum handler) (fun p =>
    (Ret (default SIG_DFL (sighandlers p !! signum)),
     set_sighandlers (<[signum := handler]> (sighandlers p)) p)).

(** [os.umask(mask)] returns the previous mask. *)
Definition os_umask (mask : Z) : Py Z :=
  syscall (Umask mask) (fun p => (Ret (umask p), set_umask (Z.land mask 511) p)).

(** [os.chdir(path)], for an absolute path. *)
Definition os_chdir (path : string) : Py unit :=
  syscall (Chdir path) (fun p => (Ret tt, set_cwd path p)).

(** [resource.getrlimit(resource.RLIMIT_NOFILE)]: the pair (soft, hard). *)
Definition resource_getrlimit_NOFILE : Py (Z * Z) :=
  syscall Getrlimit (fun p => (Ret (rlimit_nofile p), p)).

(** [os.ttyname(fd)] *)
Definition os_ttyname (fd : nat) : Py string :=
  syscall (Ttyname fd) (fun p =>
    match fds p !! fd with
    | Some (Terminal name) => (Ret name, p)
    | Some (NonTerminal _) => (Raise (OSError ENOTTY "Inappropriate ioctl for device"), p)
    | None => (Raise (OSError EBADF "Bad file descriptor"), p)
    end).

(** [os.close(fd)] *)
Definition os_close (fd : nat) : Py unit :=
  syscall (Close fd) (fun p =>
    match fds p !! fd with
    | Some _ => (Ret tt, set_fds (delete fd (fds p)) p)
    | None => (Raise (OSError EBADF "Bad file descriptor"), p)
    end).

(** The lowest descriptor number that is not in use. *)
Fixpoint first_free (t : gmap nat File) (n fuel : nat) : nat :=
  match fuel with
  | O => n
  | S fuel' => match t !! n with
               | None => n
               | Some _ => first_free t (S n) fuel'
               end
  end.

Definition lowest_free (t : gmap nat File) : nat := first_free t 0 (size t).

(** [os.open(path, flags)] of a path that is not a terminal: the new
    descriptor is the lowest free one. *)
Definition os_open (path : string) (flags : Z) : Py nat :=
  syscall (Open path flags) (fun p =>
    let fd := lowest_free (fds p) in
    (Ret fd, set_fds (<[fd := NonTerminal path]> (fds p)) p)).

(** [os.dup2(fd, fd2)] *)
Definition os_dup2 (fd fd2 : nat) : Py unit :=
  syscall (Dup2 fd fd2) (fun p =>
    match fds p !! fd with
    | Some f => (Ret tt, set_fds (<[fd2 := f]> (fds p)) p)
    | None => (Raise (OSError EBADF "Bad file descriptor"), p)
    end).

(** The logging collaborator: a call appends a record and never fails. *)
Definition emit (name : string) (lvl : Level) (msg : string) : Py unit :=
  fun p => [(Ret tt, set_logged (logged p ++ [{| logger := name; level := lvl; message := msg |}]) p)].

(** [log = logging.getLogger("daemonize")]; [log.warning(msg)] *)
Definition log_warning (msg : string) : Py unit := emit "daemonize" WARNING msg.

(** [logging.info(msg)], on the root logger. *)
Definition logging_info (msg : string) : Py unit := emit "root" INFO msg.

Definition get_os_name : Py string := fun p => [(Ret (os_name (env p)), p)].

Definition get_RLIM_INFINITY : Py Z := fun p => [(Ret (RLIM_INFINITY (env p)), p)].

(** ** The program *)

Definition UMASK : Z := 63.   (* 0o077 *)

Definition WORKDIR : string := "/".

Definition MAXFD : Z := 1024.

(** [NULL_DEVICE = os.devnull if hasattr(os, "devnull") else "/dev/null"] *)
Definition NULL_DEVICE : Py string :=
  fun p => [(Ret (default "/dev/null" (os_devnull (env p))), p)].

Definition _fork : Py Z :=
  try_except os_fork
    [(isinstance_OSError, fun e =>
        match e with
        | OSError errno strerror =>
            raise (DaemonError ("Cannot fork: " +:+ strerror +:+ " [" +:+ pretty errno +:+ "]"))
        | _ => raise e
        end)].

Section WithRepr.

(** Python's built-in [repr] on exceptions. *)
Variable repr : PyErr -> string.

(** The body of the loop of [_redirectFileDescriptors]. *)
Definition close_if_tty (fd : nat) : Py unit :=
  is_tty <- try_except (os_ttyname fd ;;; ret true)
              [(isinstance_any, fun _ => ret false)] ;;   (* continue *)
  if is_tty : bool then
    try_except (os_close fd)
      [(isinstance_OSError, fun e =>
          logging_info ("Error in _redirectFileDescriptors 1: " +:+ repr e));
       (isinstance_Exception, fun e =>
          logging_info ("Error in _redirectFileDescriptors 2: " +:+ repr e))]
  else ret tt.

(** [import resource] is left out: the function runs on POSIX only, where
    the module exists. *)
Definition _redirectFileDescriptors : Py unit :=
  limits <- resource_getrlimit_NOFILE ;;
  let maxfd := limits.2 in
  infinity <- get_RLIM_INFINITY ;;
  let maxfd := if maxfd =? infinity then MAXFD else maxfd in
  for_in (range 0 maxfd) close_if_tty ;;;
  null_device <- NULL_DEVICE ;;
  os_open null_device O_RDWR ;;;
  os_dup2 0 1 ;;;
  os_dup2 0 2.

Definition daemonize (no_close : bool) : Py unit :=
  name <- get_os_name ;;
  if negb (String.eqb name "posix") then
    log_warning "Daemon is only supported on Posix-compliant systems."
  else
    try_except
      (pid <- _fork ;;
       if negb (pid =? 0) then os__exit 0 else
       os_setsid ;;;
       signal_signal SIGHUP SIG_IGN ;;;
       pid <- _fork ;;
       if negb (pid =? 0) then os__exit 0 else
       os_umask UMASK ;;;
       os_chdir WORKDIR ;;;
       if negb no_close then _redirectFileDescriptors else ret tt)
      [(isinstance_Exception, fun e =>
          raise (DaemonError ("Error during daemonizing: " +:+ repr e)))].

End WithRepr.

(** ** Vocabulary of the specification *)

(** The calls of steps 1 to 6 of the procedure, in the documented order. *)
Definition steps : list Call :=
  [Fork; Setsid; Signal SIGHUP SIG_IGN; Fork; Umask UMASK; Chdir WORKDIR].

(** The first of the calls [cs], made from moment [t] on, that the
    environment [f] makes fail, with the exception it raises. *)
Fixpoint first_fault (f : nat -> Call -> option PyErr) (t : nat) (cs : list Call)
  : option (Call * PyErr) :=
  match cs with
  | [] => None
  | c :: rest => match f t c with
                 | Some e => Some (c, e)
                 | None => first_fault f (S t) rest
                 end
  end.

(** What [_fork] raises when [os.fork] raises [e]. *)
Definition fork_error (e : PyErr) : PyErr :=
  match e with
  | OSError errno strerror =>
      DaemonError ("Cannot fork: " +:+ strerror +:+ " [" +:+ pretty errno +:+ "]")
  | _ => e
  end.

(** The exception that reaches the handler of [daemonize] when call [c]
    of the steps raises [e]. *)
Definition cause (c : Call) (e : PyErr) : PyErr :=
  match c with Fork => fork_error e | _ => e end.

(** What the handler of [daemonize] raises for [e]. *)
Definition wrapped (repr : PyErr -> string) (e : PyErr) : PyErr :=
  DaemonError ("Error during daemonizing: " +:+ repr e).

(** The calls of the per-descriptor loop, and of the descriptor cleanup. *)
Definition is_loop_call (c : Call) : bool :=
  match c with Ttyname _ | Close _ => true | _ => false end.

Definition is_cleanup_call (c : Call) : bool :=
  match c with
  | Getrlimit | Ttyname _ | Close _ | Open _ _ | Dup2 _ _ => true
  | _ => false
  end.

(** The calls that change the descriptor table. *)
Definition touches_descriptors (c : Call) : bool :=
  match c with Close _ | Open _ _ | Dup2 _ _ => true | _ => false end.

(** The descriptors a sequence of calls asked the terminal name of. *)
Definition scanned (calls : list Call) : list nat :=
  omap (fun c => match c with Ttyname fd => Some fd | _ => None end) calls.

(** The process state one iteration of the loop leaves behind. *)
Definition scan_one (repr : PyErr -> string) (fd : nat) (p : Proc) : Proc :=
  let p1 := called (Ttyname fd) p in
  match fault (env p) (now p) (Ttyname fd), fds p !! fd with
  | None, Some (Terminal _) =>
      let p2 := called (Close fd) p1 in
      match fault (env p) (S (now p)) (Close fd) with
      | Some e =>
          let n := if isinstance_OSError e then "1" else "2" in
          set_logged (logged p ++
            [{| logger := "root"; level := INFO;
                message := "Error in _redirectFileDescriptors " +:+ n +:+ ": " +:+ repr e |}]) p2
      | None => set_fds (delete fd (fds p)) p2
      end
  | _, _ => p1
  end.

Definition scan_all (repr : PyErr -> string) (l : list nat) (p : Proc) : Proc :=
  foldl (fun q fd => scan_one repr fd q) p l.

(** The last three statements of [_redirectFileDescriptors]. *)
Definition redirect_std : Py unit :=
  null_device <- NULL_DEVICE ;;
  os_open null_device O_RDWR ;;;
  os_dup2 0 1 ;;;
  os_dup2 0 2.

(** What a process keeps through the descriptor cleanup. *)
Definition kept (p : Proc) :=
  (env p, pid p, ppid p, sid p, ctty p, sighandlers p, umask p, cwd p, rlimit_nofile p).

(** The bound of the scan of [_redirectFileDescriptors]. *)
Definition scan_bound (p : Proc) : Z :=
  if (rlimit_nofile p).2 =? RLIM_INFINITY (env p) then MAXFD else (rlimit_nofile p).2.

(** The process after the null device was opened, and after descriptor 0,
    which refers to [f], was duplicated onto [fd2]. *)
Definition null_path (p : Proc) : string := default "/dev/null" (os_devnull (env p)).

Definition open_null (p : Proc) : Proc :=
  set_fds (<[lowest_free (fds p) := NonTerminal (null_path p)]> (fds p))
    (called (Open (null_path p) O_RDWR) p).

Definition dup_std (fd2 : nat) (f : File) (p : Proc) : Proc :=
  set_fds (<[fd2 := f]> (fds p)) (called (Dup2 0 fd2) p).

(** The process after each of the steps 1 to 6 went through: the child of
    a fork, the leader of a new session, and so on. *)
Definition forked (p : Proc) : Proc :=
  set_ids (Z.pos (child_pid (env p) (now p))) (pid p) (called Fork p).

Definition in_session (p : Proc) : Proc :=
  set_session (pid p) None (called Setsid p).

Definition hup_ignored (p : Proc) : Proc :=
  set_sighandlers (<[SIGHUP := SIG_IGN]> (sighandlers p)) (called (Signal SIGHUP SIG_IGN) p).

Definition masked (p : Proc) : Proc :=
  set_umask (Z.land UMASK 511) (called (Umask UMASK) p).

Definition at_root (p : Proc) : Proc :=
  set_cwd WORKDIR (called (Chdir WORKDIR) p).

(** The process that left through [os._exit(0)] right after a fork. *)
Definition exited_parent (p : Proc) : Proc := called (Exit_ 0) (called Fork p).

Definition first_child (p : Proc) : Proc := hup_ignored (in_session (forked p)).

Definition second_child (p : Proc) : Proc := at_root (masked (forked (first_child p))).

(** The [except] clause of [daemonize]. *)
Definition daemonize_handler (repr : PyErr -> string) : list (Clause unit) :=
  [(isinstance_Exception, fun e => raise (wrapped repr e))].

(** Step 7. *)
Definition cleanup (repr : PyErr -> string) (no_close : bool) : Py unit :=
  if negb no_close then _redirectFileDescriptors repr else ret tt.

(** Where a [try] statement goes on after the first statement of its body. *)
Definition after {A B} (f : A -> Py B) (cs : list (Clause B)) (r : Outcome A * Proc)
  : list (Outcome B * Proc) :=
  match r.1 with
  | Ret a => try_except (f a) cs r.2
  | Raise e => dispatch cs e r.2
  | Exited s => [(Exited s, r.2)]
  end.

(** ** Sample processes *)

(** One rendering of exceptions, for the samples. *)
Definition sample_repr (e : PyErr) : string :=
  match e with
  | OSError n s => "OSError(" +:+ pretty n +:+ ", '" +:+ s +:+ "')"
  | DaemonError m => "DaemonError('" +:+ m +:+ "')"
  | OtherError c m => c +:+ "('" +:+ m +:+ "')"
  end.

Definition platform (name : string) (f : nat -> Call -> option PyErr) : Env :=
  {| os_name := name; os_devnull := Some "/dev/null"; RLIM_INFINITY := -1;
     fault := f; child_pid := fun t => Pos.of_nat (100 + t) |}.

Definition no_fault : nat -> Call -> option PyErr := fun _ _ => None.

(** A process started from a shell on terminal /dev/pts/0. *)
Definition started (e : Env) (hard : Z) (t : gmap nat File) : Proc :=
  {| env := e; pid := 42; ppid := 7; sid := 7; ctty := Some "/dev/pts/0";
     sighandlers := ∅; umask := 18; cwd := "/home/user";
     rlimit_nofile := (hard, hard); fds := t; trace := []; logged := [] |}.

Definition pts0 : File := Terminal "/dev/pts/0".

(** Descriptors 0, 1, 2 on the terminal and 3 on a log file. *)
Definition on_terminal : gmap nat File :=
  <[0%nat := pts0]> (<[1%nat := pts0]> (<[2%nat := pts0]>
    (<[3%nat := NonTerminal "/var/log/iredapd.log"]> ∅))).

(** Standard input redirected from a file, 1 and 2 on the terminal. *)
Definition stdin_from_file : gmap nat File :=
  <[0%nat := NonTerminal "/etc/iredapd/input"]> (<[1%nat := pts0]> (<[2%nat := pts0]> ∅)).

(** Environments in which one kind of call fails. *)
Definition signal_fails : nat -> Call -> option PyErr :=
  fun _ c => match c with
             | Signal _ _ => Some (OtherError "ValueError" "signal only works in main thread")
             | _ => None
             end.

Definition second_fork_fails : nat -> Call -> option PyErr :=
  fun t c => match t, c with
             | 3%nat, Fork => Some (OSError 11 "Resource temporarily unavailable")
             | _, _ => None
             end.

Definition open_fails : nat -> Call -> option PyErr :=
  fun _ c => match c with
             | Open _ _ => Some (OSError 2 "No such file or directory")
             | _ => None
             end.



(** The terminal session with one more terminal on descriptor 9, beyond
    a hard limit of 8. *)
Definition terminal_beyond_limit : gmap nat File := <[9%nat := pts0]> on_terminal.

(** * Properties *)

(** ** The clock and the fields of a process *)

Lemma now_called c p : now (called c p) = S (now p).
Proof. unfold now, called. cbn. rewrite length_app. cbn. lia. Qed.

Lemma now_set_ids a b p : now (set_ids a b p) = now p.
Proof. reflexivity. Qed.

Lemma now_set_session a b p : now (set_session a b p) = now p.
Proof. reflexivity. Qed.

Lemma now_set_sighandlers h p : now (set_sighandlers h p) = now p.
Proof. reflexivity. Qed.

Lemma now_set_umask m p : now (set_umask m p) = now p.
Proof. reflexivity. Qed.

Lemma now_set_cwd d p : now (set_cwd d p) = now p.
Proof. reflexivity. Qed.

Lemma now_set_fds t p : now (set_fds t p) = now p.
Proof. reflexivity. Qed.

Lemma now_set_logged l p : now (set_logged l p) = now p.
Proof. reflexivity. Qed.

Create Rewrite HintDb clock.
#[local] Hint Rewrite now_called now_set_ids now_set_session now_set_sighandlers
  now_set_umask now_set_cwd now_set_fds now_set_logged : clock.

(** ** Laws of the monad *)

Lemma bind_one {A B} (m : Py A) (f : A -> Py B) p r :
  m p = [r] -> bind m f p = continue_with f r.
Proof. intros Hm. unfold bind. rewrite Hm. cbn. apply app_nil_r. Qed.

Lemma try_one {A} (m : Py A) cs p r :
  m p = [r] -> try_except m cs p = handle_with cs r.
Proof. intros Hm. unfold try_except. rewrite Hm. cbn. apply app_nil_r. Qed.

Lemma try_bind {A B} (m : Py A) (f : A -> Py B) cs p :
  try_except (bind m f) cs p = concat (map (after f cs) (m p)).
Proof.
  unfold try_except, bind.
  induction (m p) as [|[o q] rs IH]; [done|].
  cbn [map concat]. rewrite map_app, concat_app, IH. f_equal.
  unfold after, continue_with. cbn [fst snd].
  destruct o; cbn [map concat handle_with fst snd]; [done| |]; by rewrite app_nil_r.
Qed.

Lemma bind_syscall {A B} c eff (f : A -> Py B) p :
  bind (syscall c eff) f p =
    match fault (env p) (now p) c with
    | Some e => [(Raise e, called c p)]
    | None => continue_with f (eff (called c p))
    end.
Proof.
  unfold bind, syscall. destruct (fault (env p) (now p) c); cbn; [done|apply app_nil_r].
Qed.

Lemma bind_pure {A B} (g : Proc -> A) (f : A -> Py B) p :
  bind (fun q => [(Ret (g q), q)]) f p = f (g p) p.
Proof. unfold bind. cbn. apply app_nil_r. Qed.

Lemma fds_called c p : fds (called c p) = fds p.
Proof. reflexivity. Qed.

Lemma _fork_run p :
  _fork p =
    match fault (env p) (now p) Fork with
    | Some e => [(Raise (fork_error e), called Fork p)]
    | None =>
        [(Ret (Z.pos (child_pid (env p) (now p))), called Fork p);
         (Ret 0, set_ids (Z.pos (child_pid (env p) (now p))) (pid p) (called Fork p))]
    end.
Proof.
  unfold _fork, try_except, os_fork.
  destruct (fault (env p) (now p) Fork) as [e|]; [|done].
  by destruct e.
Qed.

(** ** The lowest free descriptor *)

Lemma first_free_lookup (t : gmap nat File) n fuel :
  t !! first_free t n fuel = None \/ first_free t n fuel = (n + fuel)%nat.
Proof.
  revert n. induction fuel as [|fuel IH]; intros n; cbn.
  - right. lia.
  - destruct (t !! n) eqn:E; [|by left].
    destruct (IH (S n)) as [H|H]; [by left|right; lia].
Qed.

Lemma first_free_busy (t : gmap nat File) n fuel :
  first_free t n fuel = (n + fuel)%nat ->
  forall k, (n <= k < n + fuel)%nat -> is_Some (t !! k).
Proof.
  revert n. induction fuel as [|fuel IH]; intros n Hf k Hk; [lia|].
  cbn in Hf. destruct (t !! n) eqn:E.
  - destruct (decide (k = n)) as [->|Hne]; [by rewrite E|].
    apply (IH (S n)); [rewrite Hf|]; lia.
  - lia.
Qed.

Lemma first_free_least (t : gmap nat File) n fuel k :
  (n <= k < first_free t n fuel)%nat -> is_Some (t !! k).
Proof.
  revert n. induction fuel as [|fuel IH]; intros n Hk; cbn in Hk; [lia|].
  destruct (t !! n) eqn:E; [|lia].
  destruct (decide (k = n)) as [->|Hne]; [by rewrite E|].
  apply (IH (S n)). lia.
Qed.

(** [lowest_free] is below every other free descriptor. *)
Lemma lowest_free_least (t : gmap nat File) k :
  (k < lowest_free t)%nat -> is_Some (t !! k).
Proof. intros Hk. apply (first_free_least t 0 (size t)). unfold lowest_free in Hk. lia. Qed.

Lemma lowest_free_0 (t : gmap nat File) : t !! 0%nat = None -> lowest_free t = 0%nat.
Proof.
  unfold lowest_free. destruct (size t); [done|]. cbn. by intros ->.
Qed.

Lemma lowest_free_is_free (t : gmap nat File) : t !! lowest_free t = None.
Proof.
  unfold lowest_free.
  destruct (first_free_lookup t 0 (size t)) as [H|H]; [done|].
  rewrite H. cbn.
  apply not_elem_of_dom. intros Hin.
  assert (Hsub : set_seq (C:=gset nat) 0 (size t) ⊆ dom t).
  { intros k Hk. apply elem_of_set_seq in Hk. apply elem_of_dom.
    apply (first_free_busy t 0 (size t) H). lia. }
  assert (Hle : (size (dom t) <= size (set_seq (C:=gset nat) 0 (size t)))%nat).
  { rewrite size_set_seq, size_dom. lia. }
  pose proof (set_subseteq_size_eq _ _ Hsub Hle) as Heq.
  assert (size t ∈ set_seq (C:=gset nat) 0 (size t)) as Hbad by (rewrite Heq; done).
  apply elem_of_set_seq in Hbad. lia.
Qed.

Section Proofs.

Variable repr : PyErr -> string.

(** ** The per-descriptor loop *)

Lemma resolve_run fd p :
  try_except (os_ttyname fd ;;; ret true) [(isinstance_any, fun _ => ret false)] p =
    [(Ret (match fault (env p) (now p) (Ttyname fd) with
           | None => is_terminal (fds p !! fd)
           | Some _ => false
           end), called (Ttyname fd) p)].
Proof.
  rewrite try_bind. unfold os_ttyname, syscall.
  destruct (fault (env p) (now p) (Ttyname fd)) as [e|]; [done|].
  cbn [fds called set_trace].
  by destruct (fds p !! fd) as [[name|path]|].
Qed.

Lemma close_run fd p :
  try_except (os_close fd)
    [(isinstance_OSError, fun e =>
        logging_info ("Error in _redirectFileDescriptors 1: " +:+ repr e));
     (isinstance_Exception, fun e =>
        logging_info ("Error in _redirectFileDescriptors 2: " +:+ repr e))] p =
    [(Ret tt,
      match fault (env p) (now p) (Close fd) with
      | Some e =>
          let n := if isinstance_OSError e then "1" else "2" in
          set_logged (logged p ++
            [{| logger := "root"; level := INFO;
                message := "Error in _redirectFileDescriptors " +:+ n +:+ ": " +:+ repr e |}])
            (called (Close fd) p)
      | None =>
          match fds p !! fd with
          | Some _ => set_fds (delete fd (fds p)) (called (Close fd) p)
          | None =>
              set_logged (logged p ++
                [{| logger := "root"; level := INFO;
                    message := "Error in _redirectFileDescriptors 1: " +:+
                               repr (OSError EBADF "Bad file descriptor") |}])
                (called (Close fd) p)
          end
      end)].
Proof.
  unfold try_except, os_close, syscall.
  destruct (fault (env p) (now p) (Close fd)) as [e|].
  - by destruct e.
  - cbn [fds called set_trace]. by destruct (fds p !! fd).
Qed.

Lemma close_if_tty_run fd p :
  close_if_tty repr fd p = [(Ret tt, scan_one repr fd p)].
Proof.
  unfold close_if_tty, scan_one.
  rewrite (bind_one _ _ _ _ (resolve_run fd p)).
  cbn [continue_with fst snd].
  destruct (fault (env p) (now p) (Ttyname fd)) as [e|]; [done|].
  destruct (fds p !! fd) as [[name|path]|] eqn:Hfd; [|done|done].
  cbn [is_terminal]. rewrite close_run.
  cbn [env fds called set_trace logged]. rewrite now_called.
  destruct (fault (env p) (S (now p)) (Close fd)) as [e|]; [done|].
  by rewrite Hfd.
Qed.

Lemma for_in_scan l p :
  for_in l (close_if_tty repr) p = [(Ret tt, scan_all repr l p)].
Proof.
  revert p. induction l as [|fd l IH]; intros p; [done|].
  cbn [for_in]. rewrite (bind_one _ _ _ _ (close_if_tty_run fd p)).
  apply IH.
Qed.

Lemma scan_one_kept fd p : kept (scan_one repr fd p) = kept p.
Proof.
  unfold scan_one.
  destruct (fault (env p) (now p) (Ttyname fd)); [done|].
  destruct (fds p !! fd) as [[|]|]; [|done|done].
  by destruct (fault (env p) (S (now p)) (Close fd)).
Qed.

Lemma scan_all_kept l p : kept (scan_all repr l p) = kept p.
Proof.
  revert p. induction l as [|fd l IH]; intros p; [done|].
  cbn. unfold scan_all in IH. rewrite IH. apply scan_one_kept.
Qed.

(** One iteration asks for the terminal name of its descriptor and closes
    at most that descriptor, and only when the name was resolved. *)
Lemma scan_one_trace fd p :
  exists calls,
    trace (scan_one repr fd p) = trace p ++ calls /\
    scanned calls = [fd] /\
    Forall (fun c => is_loop_call c = true) calls /\
    (forall k, Close k ∈ calls ->
       k = fd /\ is_terminal (fds p !! fd) = true /\
       fault (env p) (now p) (Ttyname fd) = None).
Proof.
  assert (exists calls,
    trace (called (Ttyname fd) p) = trace p ++ calls /\
    scanned calls = [fd] /\
    Forall (fun c => is_loop_call c = true) calls /\
    (forall k, Close k ∈ calls ->
       k = fd /\ is_terminal (fds p !! fd) = true /\
       fault (env p) (now p) (Ttyname fd) = None)) as Hskip.
  { exists [Ttyname fd]. split; [done|]. split; [done|].
    split; [by repeat constructor|].
    intros k Hk. apply list_elem_of_singleton in Hk. discriminate. }
  unfold scan_one.
  destruct (fault (env p) (now p) (Ttyname fd)) as [e|] eqn:Ft; [done|].
  destruct (fds p !! fd) as [[name|path]|] eqn:Hfd; [|done|done].
  exists [Ttyname fd; Close fd].
  split.
  { destruct (fault (env p) (S (now p)) (Close fd)); cbn; by rewrite <- app_assoc. }
  split; [done|]. split; [by repeat constructor|].
  intros k Hk. apply elem_of_cons in Hk as [Hk|Hk]; [discriminate|].
  apply list_elem_of_singleton in Hk. by injection Hk as ->.
Qed.

Lemma scan_one_fds fd p k :
  fds (scan_one repr fd p) !! k = fds p !! k \/
  (k = fd /\ fds (scan_one repr fd p) !! k = None /\
   is_terminal (fds p !! k) = true /\
   fault (env p) (now p) (Ttyname fd) = None /\
   fault (env p) (S (now p)) (Close fd) = None).
Proof.
  unfold scan_one.
  destruct (fault (env p) (now p) (Ttyname fd)) as [e|] eqn:Ft; [by left|].
  destruct (fds p !! fd) as [[name|path]|] eqn:Hfd; [|by left|by left].
  destruct (fault (env p) (S (now p)) (Close fd)) as [e|] eqn:Fc; [by left|].
  cbn [fds set_fds called set_trace].
  destruct (decide (k = fd)) as [->|Hne].
  - right. rewrite lookup_delete_eq, Hfd. done.
  - left. by rewrite lookup_delete_ne.
Qed.

Lemma elem_of_scanned fd calls : fd ∈ scanned calls <-> Ttyname fd ∈ calls.
Proof.
  unfold scanned. rewrite list_elem_of_omap. split.
  - intros (c & Hin & Hc). destruct c; try discriminate. by injection Hc as ->.
  - intros Hin. by exists (Ttyname fd).
Qed.

Lemma scan_all_cons fd l p :
  scan_all repr (fd :: l) p = scan_all repr l (scan_one repr fd p).
Proof. reflexivity. Qed.

Lemma scan_all_spec l p :
  exists calls,
    trace (scan_all repr l p) = trace p ++ calls /\
    scanned calls = l /\
    Forall (fun c => is_loop_call c = true) calls /\
    (forall k, Close k ∈ calls -> k ∈ l /\ is_terminal (fds p !! k) = true) /\
    (forall k, fds (scan_all repr l p) !! k = fds p !! k \/
               (k ∈ l /\ fds (scan_all repr l p) !! k = None /\
                is_terminal (fds p !! k) = true)).
Proof.
  revert p. induction l as [|fd l IH]; intros p.
  { exists []. cbn. rewrite app_nil_r.
    split; [done|]. split; [done|]. split; [done|].
    split; [|by left]. intros k Hk. by apply elem_of_nil in Hk. }
  rewrite scan_all_cons.
  destruct (scan_one_trace fd p) as (c1 & Ht1 & Hs1 & Hl1 & Hc1).
  destruct (IH (scan_one repr fd p)) as (c2 & Ht2 & Hs2 & Hl2 & Hc2 & Hf2).
  exists (c1 ++ c2). split; [by rewrite Ht2, Ht1, app_assoc|].
  split; [unfold scanned in *; by rewrite omap_app, Hs1, Hs2|].
  split; [by apply Forall_app|].
  split.
  - intros k Hk. apply elem_of_app in Hk as [Hk|Hk].
    + destruct (Hc1 k Hk) as (-> & Hterm & _). split; [left|done].
    + destruct (Hc2 k Hk) as [Hin Hterm]. split; [by right|].
      destruct (scan_one_fds fd p k) as [Heq|(_ & Hnone & _)].
      * by rewrite <- Heq.
      * by rewrite Hnone in Hterm.
  - intros k.
    destruct (Hf2 k) as [Heq|(Hin & Hnone & Hterm)];
      destruct (scan_one_fds fd p k) as [Heq1|(-> & Hnone1 & Hterm1 & _)].
    + left. by rewrite Heq.
    + right. rewrite Heq. split; [left|done].
    + right. rewrite <- Heq1. split; [by right|done].
    + by rewrite Hnone1 in Hterm.
Qed.

(** Without faults, every terminal among the scanned descriptors is closed. *)
Lemma scan_all_closes l p k :
  (forall t c, fault (env p) t c = None) ->
  k ∈ l -> is_terminal (fds p !! k) = true ->
  fds (scan_all repr l p) !! k = None.
Proof.
  revert p. induction l as [|fd l IH]; intros p Hq Hin Hterm.
  { by apply elem_of_nil in Hin. }
  rewrite scan_all_cons.
  assert (env (scan_one repr fd p) = env p) as Henv.
  { pose proof (scan_one_kept fd p) as Hk. unfold kept in Hk. congruence. }
  destruct (decide (k = fd)) as [->|Hne].
  - assert (fds (scan_one repr fd p) !! fd = None) as Hnone.
    { unfold scan_one. rewrite !Hq.
      destruct (fds p !! fd) as [[name|path]|]; [|done|done].
      cbn. apply lookup_delete_eq. }
    destruct (scan_all_spec l (scan_one repr fd p)) as (_ & _ & _ & _ & _ & Hf).
    destruct (Hf fd) as [Heq|(_ & Heq & _)]; congruence.
  - apply elem_of_cons in Hin as [?|Hin]; [done|].
    apply IH; [by rewrite Henv|done|].
    destruct (scan_one_fds fd p k) as [Heq|(? & _)]; [by rewrite Heq|done].
Qed.

(** ** The descriptor cleanup *)

Lemma _redirectFileDescriptors_run p :
  _redirectFileDescriptors repr p =
    match fault (env p) (now p) Getrlimit with
    | Some e => [(Raise e, called Getrlimit p)]
    | None => redirect_std (scan_all repr (range 0 (scan_bound p)) (called Getrlimit p))
    end.
Proof.
  unfold _redirectFileDescriptors, resource_getrlimit_NOFILE.
  unfold bind at 1, syscall.
  destruct (fault (env p) (now p) Getrlimit) as [e|]; [done|].
  cbn [map concat continue_with fst snd]. rewrite app_nil_r.
  unfold bind at 1, get_RLIM_INFINITY.
  cbn [map concat continue_with fst snd]. rewrite app_nil_r.
  cbn [env rlimit_nofile called set_trace].
  fold (scan_bound p).
  by rewrite (bind_one _ _ _ _ (for_in_scan _ _)).
Qed.

Lemma redirect_std_run q :
  redirect_std q =
    match fault (env q) (now q) (Open (null_path q) O_RDWR) with
    | Some e => [(Raise e, called (Open (null_path q) O_RDWR) q)]
    | None =>
        match fault (env q) (S (now q)) (Dup2 0 1) with
        | Some e => [(Raise e, called (Dup2 0 1) (open_null q))]
        | None =>
            match fds (open_null q) !! 0%nat with
            | None => [(Raise (OSError EBADF "Bad file descriptor"),
                        called (Dup2 0 1) (open_null q))]
            | Some f =>
                match fault (env q) (S (S (now q))) (Dup2 0 2) with
                | Some e => [(Raise e, called (Dup2 0 2) (dup_std 1 f (open_null q)))]
                | None => [(Ret tt, dup_std 2 f (dup_std 1 f (open_null q)))]
                end
            end
        end
    end.
Proof.
  unfold redirect_std, NULL_DEVICE, os_open, os_dup2.
  rewrite bind_pure, bind_syscall. fold (null_path q).
  destruct (fault (env q) (now q) (Open (null_path q) O_RDWR)) as [e|]; [done|].
  cbn [continue_with fst snd]. rewrite !fds_called. fold (open_null q).
  rewrite bind_syscall.
  replace (now (open_null q)) with (S (now q))
    by (unfold open_null; by autorewrite with clock).
  change (env (open_null q)) with (env q).
  destruct (fault (env q) (S (now q)) (Dup2 0 1)) as [e|]; [done|].
  change (fds (called (Dup2 0 1) (open_null q))) with (fds (open_null q)).
  destruct (fds (open_null q) !! 0%nat) as [f|] eqn:H0; [|done].
  cbn [continue_with fst snd]. fold (dup_std 1 f (open_null q)).
  unfold syscall.
  replace (now (dup_std 1 f (open_null q))) with (S (S (now q)))
    by (unfold dup_std, open_null; by autorewrite with clock).
  change (env (dup_std 1 f (open_null q))) with (env q).
  destruct (fault (env q) (S (S (now q))) (Dup2 0 2)) as [e|]; [done|].
  change (fds (called (Dup2 0 2) (dup_std 1 f (open_null q))))
    with (<[1%nat := f]> (fds (open_null q))).
  rewrite lookup_insert_ne by done. by rewrite H0.
Qed.

Lemma open_null_fd0 q : is_Some (fds (open_null q) !! 0%nat).
Proof.
  unfold open_null. cbn [fds set_fds].
  destruct (fds q !! 0%nat) as [f|] eqn:H0.
  - destruct (decide (lowest_free (fds q) = 0%nat)) as [->|Hne].
    + rewrite lookup_insert_eq. eauto.
    + rewrite lookup_insert_ne by done. rewrite H0. eauto.
  - rewrite (lowest_free_0 _ H0), lookup_insert_eq. eauto.
Qed.

Lemma redirect_std_spec q :
  exists o q' calls,
    redirect_std q = [(o, q')] /\
    trace q' = trace q ++ calls /\
    Forall (fun c => is_cleanup_call c = true) calls /\
    scanned calls = [] /\
    kept q' = kept q.
Proof.
  rewrite redirect_std_run.
  destruct (fault (env q) (now q) (Open (null_path q) O_RDWR)) as [e|].
  { exists (Raise e), (called (Open (null_path q) O_RDWR) q), [Open (null_path q) O_RDWR].
    repeat split. by repeat constructor. }
  destruct (fault (env q) (S (now q)) (Dup2 0 1)) as [e|];
    [|destruct (fds (open_null q) !! 0%nat) as [f|];
      [destruct (fault (env q) (S (S (now q))) (Dup2 0 2)) as [e|]|]].
  1,4: eexists _, _, [Open (null_path q) O_RDWR; Dup2 0 1].
  3,4: eexists _, _, [Open (null_path q) O_RDWR; Dup2 0 1; Dup2 0 2].
  all: split; [reflexivity|]; cbn; rewrite <- ?app_assoc;
    split; [reflexivity|]; split; [by repeat constructor|done].
Qed.

(** The redirection succeeds when neither the open nor a dup fails. *)
Lemma redirect_std_ok q :
  (forall t path flags, fault (env q) t (Open path flags) = None) ->
  (forall t fd fd2, fault (env q) t (Dup2 fd fd2) = None) ->
  exists q', redirect_std q = [(Ret tt, q')].
Proof.
  intros Ho Hd. rewrite redirect_std_run, Ho, !Hd.
  destruct (open_null_fd0 q) as [f ->]. eauto.
Qed.



(** What the cleanup does to the table, whatever fails: a descriptor
    from 3 on that was open on something other than a terminal is kept. *)
Lemma cleanup_keeps_other_files p o p' k f :
  _redirectFileDescriptors repr p = [(o, p')] ->
  (3 <= k)%nat -> fds p !! k = Some (NonTerminal f) ->
  fds p' !! k = Some (NonTerminal f).
Proof.
  intros Hrun Hk Hf. rewrite _redirectFileDescriptors_run in Hrun.
  destruct (fault (env p) (now p) Getrlimit); [by injection Hrun as _ <-|].
  set (q := scan_all repr (range 0 (scan_bound p)) (called Getrlimit p)) in Hrun.
  assert (fds q !! k = Some (NonTerminal f)) as Hq.
  { destruct (scan_all_spec (range 0 (scan_bound p)) (called Getrlimit p))
      as (_ & _ & _ & _ & _ & Hfds).
    destruct (Hfds k) as [Heq|(_ & _ & Hterm)]; [unfold q; by rewrite Heq|].
    rewrite fds_called, Hf in Hterm. discriminate. }
  assert (fds (open_null q) !! k = Some (NonTerminal f)) as Ho.
  { unfold open_null. cbn [fds set_fds].
    rewrite lookup_insert_ne; [done|].
    intros Heq. pose proof (lowest_free_is_free (fds q)) as Hfree.
    rewrite Heq, Hq in Hfree. discriminate. }
  rewrite redirect_std_run in Hrun.
  destruct (fault (env q) (now q) (Open (null_path q) O_RDWR));
    [by injection Hrun as _ <-|].
  destruct (fault (env q) (S (now q)) (Dup2 0 1)); [by injection Hrun as _ <-|].
  destruct (fds (open_null q) !! 0%nat) as [f0|]; [|by injection Hrun as _ <-].
  destruct (fault (env q) (S (S (now q))) (Dup2 0 2)); injection Hrun as _ <-.
  all: unfold dup_std; cbn [fds set_fds called set_trace];
    rewrite ?lookup_insert_ne by lia; done.
Qed.

(** When nothing fails, the scan reaches descriptor 0, and descriptor 0
    is free or on a terminal: the cleanup returns, descriptors 0, 1, 2
    refer to the null device, and every terminal below the bound is
    closed. *)
Lemma cleanup_when_stdin_is_free p :
  (forall t c, fault (env p) t c = None) ->
  0 < scan_bound p ->
  fds p !! 0%nat = None \/ is_terminal (fds p !! 0%nat) = true ->
  exists p',
    _redirectFileDescriptors repr p = [(Ret tt, p')] /\
    fds p' !! 0%nat = Some (NonTerminal (null_path p)) /\
    fds p' !! 1%nat = Some (NonTerminal (null_path p)) /\
    fds p' !! 2%nat = Some (NonTerminal (null_path p)) /\
    (forall k, (3 <= k)%nat -> Z.of_nat k < scan_bound p ->
               is_terminal (fds p !! k) = true -> fds p' !! k = None).
Proof.
  intros Hquiet Hbound H0. rewrite _redirectFileDescriptors_run, Hquiet.
  set (q := scan_all repr (range 0 (scan_bound p)) (called Getrlimit p)).
  assert (forall k, Z.of_nat k < scan_bound p -> k ∈ range 0 (scan_bound p)) as Hin.
  { intros k Hk. unfold range. apply elem_of_seq. lia. }
  assert (forall k, Z.of_nat k < scan_bound p -> is_terminal (fds p !! k) = true ->
                    fds q !! k = None) as Hclosed.
  { intros k Hk Hterm. apply scan_all_closes; [done|by apply Hin|done]. }
  assert (env q = env p) as Hq.
  { pose proof (scan_all_kept (range 0 (scan_bound p)) (called Getrlimit p)) as Hk.
    unfold kept in Hk. injection Hk as He _ _ _ _ _ _ _ _. exact He. }
  assert (fds q !! 0%nat = None) as Hq0.
  { destruct H0 as [Hnone|Hterm]; [|by apply Hclosed].
    destruct (scan_all_spec (range 0 (scan_bound p)) (called Getrlimit p))
      as (_ & _ & _ & _ & _ & Hfds).
    destruct (Hfds 0%nat) as [Heq|(_ & Heq & _)]; [unfold q; by rewrite Heq, fds_called|done]. }
  assert (null_path q = null_path p) as Hnull by (unfold null_path; by rewrite Hq).
  rewrite redirect_std_run, Hq, !Hquiet.
  unfold open_null at 1. cbn [fds set_fds]. rewrite (lowest_free_0 _ Hq0).
  rewrite lookup_insert_eq. eexists. split; [reflexivity|].
  unfold dup_std, open_null. cbn [fds set_fds called set_trace].
  rewrite (lowest_free_0 _ Hq0), Hnull.
  split; [by rewrite !lookup_insert_ne, lookup_insert_eq by lia|].
  split; [by rewrite lookup_insert_ne, lookup_insert_eq by lia|].
  split; [by rewrite lookup_insert_eq|].
  intros k Hk Hlt Hterm. rewrite !lookup_insert_ne by lia. by apply Hclosed.
Qed.

(** ** The run of [daemonize] *)

Lemma _redirectFileDescriptors_spec p :
  exists o p' calls,
    _redirectFileDescriptors repr p = [(o, p')] /\
    trace p' = trace p ++ Getrlimit :: calls /\
    Forall (fun c => is_cleanup_call c = true) calls /\
    scanned calls =
      match fault (env p) (now p) Getrlimit with
      | Some _ => []
      | None => range 0 (scan_bound p)
      end /\
    kept p' = kept p.
Proof.
  rewrite _redirectFileDescriptors_run.
  destruct (fault (env p) (now p) Getrlimit) as [e|].
  { exists (Raise e), (called Getrlimit p), []. by repeat split. }
  set (p1 := called Getrlimit p).
  destruct (scan_all_spec (range 0 (scan_bound p)) p1) as (c1 & Ht1 & Hs1 & Hl1 & _).
  destruct (redirect_std_spec (scan_all repr (range 0 (scan_bound p)) p1))
    as (o & p' & c2 & Hrun & Ht2 & Hc2 & Hs2 & Hk2).
  exists o, p', (c1 ++ c2). split; [done|].
  split; [rewrite Ht2, Ht1; subst p1; cbn; by rewrite <- !app_assoc|].
  split.
  { apply Forall_app. split; [|done].
    eapply Forall_impl; [exact Hl1|]. by intros []. }
  split; [unfold scanned in *; by rewrite omap_app, Hs1, Hs2, app_nil_r|].
  by rewrite Hk2, scan_all_kept.
Qed.

Lemma daemonize_run no_close p :
  os_name (env p) = "posix" ->
  daemonize repr no_close p =
    match fault (env p) (now p) Fork with
    | Some e => [(Raise (wrapped repr (fork_error e)), called Fork p)]
    | None =>
      (Exited 0, exited_parent p) ::
      match fault (env p) (S (now p)) Setsid with
      | Some e => [(Raise (wrapped repr e), called Setsid (forked p))]
      | None =>
        match fault (env p) (S (S (now p))) (Signal SIGHUP SIG_IGN) with
        | Some e => [(Raise (wrapped repr e),
                      called (Signal SIGHUP SIG_IGN) (in_session (forked p)))]
        | None =>
          match fault (env p) (S (S (S (now p)))) Fork with
          | Some e => [(Raise (wrapped repr (fork_error e)), called Fork (first_child p))]
          | None =>
            (Exited 0, exited_parent (first_child p)) ::
            match fault (env p) (S (S (S (S (now p))))) (Umask UMASK) with
            | Some e => [(Raise (wrapped repr e),
                          called (Umask UMASK) (forked (first_child p)))]
            | None =>
              match fault (env p) (S (S (S (S (S (now p)))))) (Chdir WORKDIR) with
              | Some e => [(Raise (wrapped repr e),
                            called (Chdir WORKDIR) (masked (forked (first_child p))))]
              | None =>
                  try_except (cleanup repr no_close) (daemonize_handler repr) (second_child p)
              end
            end
          end
        end
      end
    end.
Proof.
  intros Hposix.
  unfold daemonize, get_os_name. rewrite bind_pure, Hposix.
  cbn [String.eqb Ascii.eqb Bool.eqb negb].
  fold (daemonize_handler repr). fold (cleanup repr no_close).
  rewrite try_bind, _fork_run.
  destruct (fault (env p) (now p) Fork) as [e|]; [done|].
  cbn [map concat after fst snd app Z.eqb negb]. rewrite app_nil_r.
  unfold try_except at 1, os__exit at 1. cbn [map concat app handle_with fst snd].
  fold (exited_parent p). fold (forked p). f_equal.
  rewrite try_bind. unfold os_setsid, syscall.
  replace (now (forked p)) with (S (now p)) by (unfold forked; by autorewrite with clock).
  change (env (forked p)) with (env p).
  destruct (fault (env p) (S (now p)) Setsid) as [e|]; [done|].
  cbn [map concat after fst snd app]. rewrite app_nil_r.
  change (pid (called Setsid (forked p))) with (pid (forked p)).
  fold (in_session (forked p)).
  rewrite try_bind. unfold signal_signal, syscall.
  replace (now (in_session (forked p))) with (S (S (now p)))
    by (unfold in_session, forked; by autorewrite with clock).
  change (env (in_session (forked p))) with (env p).
  destruct (fault (env p) (S (S (now p))) (Signal SIGHUP SIG_IGN)) as [e|]; [done|].
  cbn [map concat after fst snd app]. rewrite app_nil_r.
  change (sighandlers (called (Signal SIGHUP SIG_IGN) (in_session (forked p))))
    with (sighandlers (in_session (forked p))).
  fold (hup_ignored (in_session (forked p))). fold (first_child p).
  rewrite try_bind, _fork_run.
  replace (now (first_child p)) with (S (S (S (now p))))
    by (unfold first_child, hup_ignored, in_session, forked; by autorewrite with clock).
  change (env (first_child p)) with (env p).
  destruct (fault (env p) (S (S (S (now p)))) Fork) as [e|]; [done|].
  cbn [map concat after fst snd app Z.eqb negb]. rewrite app_nil_r.
  unfold try_except at 1, os__exit at 1. cbn [map concat app handle_with fst snd].
  fold (exited_parent (first_child p)).
  replace (set_ids _ _ (called Fork (first_child p))) with (forked (first_child p)).
  2:{ unfold forked. do 3 f_equal.
      unfold first_child, hup_ignored, in_session, forked. by autorewrite with clock. }
  f_equal.
  rewrite try_bind. unfold os_umask, syscall.
  replace (now (forked (first_child p))) with (S (S (S (S (now p)))))
    by (unfold first_child, hup_ignored, in_session, forked; by autorewrite with clock).
  change (env (forked (first_child p))) with (env p).
  destruct (fault (env p) (S (S (S (S (now p))))) (Umask UMASK)) as [e|]; [done|].
  cbn [map concat after fst snd app]. rewrite app_nil_r.
  fold (masked (forked (first_child p))).
  rewrite try_bind. unfold os_chdir, syscall.
  replace (now (masked (forked (first_child p)))) with (S (S (S (S (S (now p))))))
    by (unfold masked, first_child, hup_ignored, in_session, forked; by autorewrite with clock).
  change (env (masked (forked (first_child p)))) with (env p).
  destruct (fault (env p) (S (S (S (S (S (now p)))))) (Chdir WORKDIR)) as [e|]; [done|].
  cbn [map concat after fst snd app]. rewrite app_nil_r.
  reflexivity.
Qed.






(** Step 7 ends in one outcome; it makes only calls of the descriptor
    cleanup, and none when it is suppressed; what it raises is wrapped. *)
Lemma cleanup_spec no_close q :
  exists o q' calls,
    try_except (cleanup repr no_close) (daemonize_handler repr) q = [(o, q')] /\
    trace q' = trace q ++ calls /\
    Forall (fun c => is_cleanup_call c = true) calls /\
    (if no_close then calls = [] /\ o = Ret tt /\ q' = q
     else head calls = Some Getrlimit) /\
    kept q' = kept q /\
    (forall e, o = Raise e -> exists e0, e = wrapped repr e0).
Proof.
  destruct no_close.
  { exists (Ret tt), q, []. rewrite app_nil_r. repeat split; [constructor|done]. }
  destruct (_redirectFileDescriptors_spec q) as (o & q' & calls & Hrun & Ht & Hc & _ & Hk).
  cbn [cleanup negb]. rewrite (try_one _ _ _ _ Hrun).
  unfold handle_with. cbn [fst snd].
  assert (Forall (fun c => is_cleanup_call c = true) (Getrlimit :: calls)) by by constructor.
  destruct o as [[]|e|s].
  - exists (Ret tt), q', (Getrlimit :: calls). by repeat split.
  - exists (Raise (wrapped repr e)), q', (Getrlimit :: calls).
    repeat split; try done. intros e' [= <-]. eauto.
  - exists (Exited s), q', (Getrlimit :: calls). by repeat split.
Qed.

(** When the first failing call of steps 1 to 6 is [c], raising [e]: the
    process that made the call raises the wrapped cause, and the
    processes before it left through [os._exit(0)]. *)
Lemma daemonize_first_fault no_close p c e :
  os_name (env p) = "posix" ->
  first_fault (fault (env p)) (now p) steps = Some (c, e) ->
  exists before d,
    daemonize repr no_close p = before ++ [(Raise (wrapped repr (cause c e)), d)] /\
    Forall (fun r : Outcome unit * Proc => r.1 = Exited 0) before.
Proof.
  intros Hposix Hff. rewrite (daemonize_run _ _ Hposix).
  unfold steps in Hff. cbn [first_fault] in Hff.
  destruct (fault (env p) (now p) Fork) as [e1|].
  { injection Hff as <- <-. by eexists [], _. }
  destruct (fault (env p) (S (now p)) Setsid) as [e2|].
  { injection Hff as <- <-. eexists [_], _. split; [done|]. by repeat constructor. }
  destruct (fault (env p) (S (S (now p))) (Signal SIGHUP SIG_IGN)) as [e3|].
  { injection Hff as <- <-. eexists [_], _. split; [done|]. by repeat constructor. }
  destruct (fault (env p) (S (S (S (now p)))) Fork) as [e4|].
  { injection Hff as <- <-. eexists [_], _. split; [done|]. by repeat constructor. }
  destruct (fault (env p) (S (S (S (S (now p))))) (Umask UMASK)) as [e5|].
  { injection Hff as <- <-. eexists [_; _], _. split; [done|]. by repeat constructor. }
  destruct (fault (env p) (S (S (S (S (S (now p)))))) (Chdir WORKDIR)) as [e6|]; [|done].
  injection Hff as <- <-. eexists [_; _], _. split; [done|]. by repeat constructor.
Qed.

(** When steps 1 to 6 go through, the two parents leave and the second
    child goes on to step 7. *)
Lemma daemonize_steps no_close p :
  os_name (env p) = "posix" ->
  first_fault (fault (env p)) (now p) steps = None ->
  daemonize repr no_close p =
    (Exited 0, exited_parent p) :: (Exited 0, exited_parent (first_child p)) ::
    try_except (cleanup repr no_close) (daemonize_handler repr) (second_child p).
Proof.
  intros Hposix Hff. rewrite (daemonize_run _ _ Hposix).
  unfold steps in Hff. cbn [first_fault] in Hff.
  destruct (fault (env p) (now p) Fork); [done|].
  destruct (fault (env p) (S (now p)) Setsid); [done|].
  destruct (fault (env p) (S (S (now p))) (Signal SIGHUP SIG_IGN)); [done|].
  destruct (fault (env p) (S (S (S (now p)))) Fork); [done|].
  destruct (fault (env p) (S (S (S (S (now p))))) (Umask UMASK)); [done|].
  by destruct (fault (env p) (S (S (S (S (S (now p)))))) (Chdir WORKDIR)).
Qed.

Lemma daemonize_off_posix no_close p :
  os_name (env p) <> "posix" ->
  daemonize repr no_close p =
    [(Ret tt,
      set_logged (logged p ++
        [{| logger := "daemonize"; level := WARNING;
            message := "Daemon is only supported on Posix-compliant systems." |}]) p)].
Proof.
  intros Hname. apply String.eqb_neq in Hname.
  unfold daemonize, get_os_name. by rewrite bind_pure, Hname.
Qed.

(** * The claims *)


(** C4. On a POSIX platform, a failure of a fork, of the session creation,
    of the change of the hangup disposition, of the umask or of the
    working directory makes [daemonize] raise a [DaemonError] whose
    message carries the cause; for a fork that the system refused, the
    cause carries the error code and its description.  The failure is
    not swallowed. *)
Theorem step_failure_raises_DaemonError no_close p c e :
  os_name (env p) = "posix" ->
  first_fault (fault (env p)) (now p) steps = Some (c, e) ->
  exists before d,
    daemonize repr no_close p =
      before ++ [(Raise (DaemonError ("Error during daemonizing: " +:+ repr (cause c e))), d)] /\
    Forall (fun r : Outcome unit * Proc => r.1 = Exited 0) before /\
    (forall errno strerror, c = Fork -> e = OSError errno strerror ->
       cause c e = DaemonError ("Cannot fork: " +:+ strerror +:+ " [" +:+ pretty errno +:+ "]")) /\
    (c <> Fork -> cause c e = e).
Proof.
  intros Hposix Hff.
  destruct (daemonize_first_fault no_close p c e Hposix Hff) as (before & d & Hrun & Hb).
  exists before, d. split; [done|]. split; [done|].
  split; [by intros n s -> ->|]. by destruct c.
Qed.

(** C9. When the first or the second fork fails, the caller sees a
    [DaemonError] wrapped twice: [_fork] wraps the system's error, with
    its description and code, and the handler of [daemonize] wraps the
    representation of that [DaemonError] again. *)
Theorem fork_failure_wrapped_twice no_close p errno strerror :
  os_name (env p) = "posix" ->
  first_fault (fault (env p)) (now p) steps = Some (Fork, OSError errno strerror) ->
  let inner := DaemonError ("Cannot fork: " +:+ strerror +:+ " [" +:+ pretty errno +:+ "]") in
  exists before d,
    daemonize repr no_close p =
      before ++ [(Raise (DaemonError ("Error during daemonizing: " +:+ repr inner)), d)] /\
    Forall (fun r : Outcome unit * Proc => r.1 = Exited 0) before /\
    DaemonError ("Error during daemonizing: " +:+ repr inner) <> inner.
Proof.
  intros Hposix Hff inner.
  destruct (daemonize_first_fault no_close p _ _ Hposix Hff) as (before & d & Hrun & Hb).
  exists before, d. split; [done|]. split; [done|]. subst inner. by intros [=].
Qed.

(** C5. After a successful run on a POSIX platform the umask is the
    configured default, which is octal 077 and denies write and execute
    to group and others, and the working directory is the root,
    whatever they were before. *)
Theorem successful_run_sets_umask_and_cwd no_close p :
  os_name (env p) = "posix" ->
  Forall (fun r : Outcome unit * Proc =>
            r.1 = Ret tt -> umask r.2 = UMASK /\ cwd r.2 = "/")
         (daemonize repr no_close p) /\
  UMASK = 7 * 8 + 7 /\ Z.land UMASK (3 * 8 + 3) = 3 * 8 + 3.
Proof.
  intros Hposix. split; [|done].
  destruct (first_fault (fault (env p)) (now p) steps) as [[c e]|] eqn:Hff.
  - destruct (daemonize_first_fault no_close p c e Hposix Hff) as (before & d & -> & Hb).
    apply Forall_app. split.
    + eapply Forall_impl; [exact Hb|]. intros r Hr. rewrite Hr. discriminate.
    + by repeat constructor.
  - rewrite (daemonize_steps _ _ Hposix Hff).
    destruct (cleanup_spec no_close (second_child p))
      as (o & d & calls & -> & _ & _ & _ & Hk & _).
    repeat constructor; try discriminate.
    all: cbn [snd]; unfold kept in Hk; injection Hk as _ _ _ _ _ _ Hu Hc _;
      by rewrite ?Hu, ?Hc.
Qed.

(** C6. Off POSIX, whatever the flag, [daemonize] makes no call to the
    system (no fork, no change of directory, umask, signal disposition
    or descriptor), logs one warning and returns. *)
Theorem daemonize_not_posix no_close p :
  os_name (env p) <> "posix" ->
  exists p',
    daemonize repr no_close p = [(Ret tt, p')] /\
    trace p' = trace p /\
    pid p' = pid p /\ sid p' = sid p /\
    cwd p' = cwd p /\ umask p' = umask p /\
    sighandlers p' = sighandlers p /\
    fds p' = fds p /\
    logged p' = logged p ++
      [{| logger := "daemonize"; level := WARNING;
          message := "Daemon is only supported on Posix-compliant systems." |}].
Proof.
  intros Hname. rewrite (daemonize_off_posix _ _ Hname). by eexists.
Qed.

(** C7. With the suppress flag set, [daemonize] closes no descriptor and
    leaves the descriptor table as it was, in every process it ends in
    and whatever fails. *)
Theorem suppressed_cleanup_keeps_descriptors p :
  Forall (fun r : Outcome unit * Proc =>
            fds r.2 = fds p /\
            exists calls, trace r.2 = trace p ++ calls /\
                          Forall (fun c => touches_descriptors c = false) calls)
         (daemonize repr true p).
Proof.
  destruct (decide (os_name (env p) = "posix")) as [Hposix|Hname].
  2:{ rewrite (daemonize_off_posix _ _ Hname). repeat constructor.
      exists []. by rewrite app_nil_r. }
  rewrite (daemonize_run _ _ Hposix).
  unfold second_child, exited_parent, first_child, at_root, masked, hup_ignored,
    in_session, forked.
  destruct (fault (env p) (now p) Fork);
    [|destruct (fault (env p) (S (now p)) Setsid);
      [|destruct (fault (env p) (S (S (now p))) (Signal SIGHUP SIG_IGN));
        [|destruct (fault (env p) (S (S (S (now p)))) Fork);
          [|destruct (fault (env p) (S (S (S (S (now p))))) (Umask UMASK));
            [|destruct (fault (env p) (S (S (S (S (S (now p)))))) (Chdir WORKDIR))]]]]].
  all: repeat constructor.
  all: cbn; rewrite <- ?app_assoc; eexists; split; [reflexivity|]; by repeat constructor.
Qed.

(** C8. The scan covers the descriptors below the hard limit on open
    files, and below 1024 when that limit is unlimited: then at most 1024
    descriptors are examined. *)
Theorem scan_bound_is_hard_limit_or_MAXFD p :
  let hard := (rlimit_nofile p).2 in
  let bound := if hard =? RLIM_INFINITY (env p) then 1024 else hard in
  exists o p' calls,
    _redirectFileDescriptors repr p = [(o, p')] /\
    trace p' = trace p ++ calls /\
    scanned calls =
      match fault (env p) (now p) Getrlimit with
      | Some _ => []
      | None => range 0 bound
      end /\
    (hard = RLIM_INFINITY (env p) -> (length (scanned calls) <= 1024)%nat).
Proof.
  intros hard bound.
  destruct (_redirectFileDescriptors_spec p) as (o & p' & calls & Hrun & Ht & _ & Hs & _).
  exists o, p', (Getrlimit :: calls). split; [done|]. split; [done|].
  change (scanned (Getrlimit :: calls)) with (scanned calls).
  split; [done|]. intros Hinf. rewrite Hs.
  destruct (fault (env p) (now p) Getrlimit); [cbn; lia|].
  unfold scan_bound. fold hard. rewrite Hinf, Z.eqb_refl.
  unfold range, MAXFD. rewrite length_seq. lia.
Qed.

(** C10. The per-descriptor loop is total and conservative.  Whatever the
    descriptor table and whatever fails, the loop returns and never
    raises; it closes a descriptor only after resolving it to a terminal
    name; a descriptor whose resolution fails, for any reason, also
    because it is not open, is skipped untouched; and an error of the
    close is absorbed. *)
Theorem close_loop_total_and_conservative :
  (forall maxfd p,
     exists p' calls,
       for_in (range 0 maxfd) (close_if_tty repr) p = [(Ret tt, p')] /\
       trace p' = trace p ++ calls /\
       Forall (fun c => is_loop_call c = true) calls /\
       (forall fd, Close fd ∈ calls ->
          Ttyname fd ∈ calls /\ is_terminal (fds p !! fd) = true) /\
       (forall fd, fds p' !! fd = fds p !! fd \/
          (fds p' !! fd = None /\ is_terminal (fds p !! fd) = true /\
           Z.of_nat fd < maxfd))) /\
  (forall fd p,
     exists p',
       close_if_tty repr fd p = [(Ret tt, p')] /\
       (fault (env p) (now p) (Ttyname fd) <> None \/ is_terminal (fds p !! fd) = false ->
          p' = called (Ttyname fd) p) /\
       (forall k, fds p' !! k <> fds p !! k ->
          k = fd /\ fds p' !! k = None /\
          fault (env p) (now p) (Ttyname fd) = None /\
          is_terminal (fds p !! fd) = true)).
Proof.
  split.
  - intros maxfd p.
    destruct (scan_all_spec (range 0 maxfd) p) as (calls & Ht & Hs & Hl & Hc & Hf).
    exists (scan_all repr (range 0 maxfd) p), calls.
    split; [apply for_in_scan|]. split; [done|]. split; [done|]. split.
    + intros fd Hfd. destruct (Hc fd Hfd) as [Hin Hterm]. split; [|done].
      rewrite <- Hs in Hin. by apply elem_of_scanned.
    + intros fd. destruct (Hf fd) as [Heq|(Hin & Hnone & Hterm)]; [by left|right].
      split; [done|]. split; [done|].
      unfold range in Hin. apply elem_of_seq in Hin. lia.
  - intros fd p. exists (scan_one repr fd p).
    split; [apply close_if_tty_run|]. split.
    + unfold scan_one. intros [Hfault|Hterm].
      * by destruct (fault (env p) (now p) (Ttyname fd)).
      * destruct (fault (env p) (now p) (Ttyname fd)); [done|].
        by destruct (fds p !! fd) as [[name|path]|].
    + intros k Hk.
      destruct (scan_one_fds fd p k) as [Heq|(-> & Hnone & Hterm & Hft & _)]; done.
Qed.


End Proofs.

(** * The claims on sample processes *)

(** C2: at a process whose standard input is a file, none of the
    descriptors 0, 1, 2 refers to the null device after the cleanup. *)
Theorem stdin_on_a_file_is_duplicated :
  exists p',
    _redirectFileDescriptors sample_repr
      (started (platform "posix" no_fault) 8 stdin_from_file) = [(Ret tt, p')] /\
    trace p' =
      [Getrlimit; Ttyname 0; Ttyname 1; Close 1; Ttyname 2; Close 2; Ttyname 3;
       Ttyname 4; Ttyname 5; Ttyname 6; Ttyname 7;
       Open "/dev/null" O_RDWR; Dup2 0 1; Dup2 0 2] /\
    fds p' !! 0%nat = Some (NonTerminal "/etc/iredapd/input") /\
    fds p' !! 1%nat = Some (NonTerminal "/etc/iredapd/input") /\
    fds p' !! 2%nat = Some (NonTerminal "/etc/iredapd/input") /\
    fds p' = <[0%nat := NonTerminal "/etc/iredapd/input"]>
               (<[1%nat := NonTerminal "/etc/iredapd/input"]>
                  (<[2%nat := NonTerminal "/etc/iredapd/input"]> ∅)).
Proof.
  eexists. split; [vm_compute; reflexivity|].
  split; [reflexivity|]. split; [reflexivity|]. split; [reflexivity|]. split; [reflexivity|].
  vm_compute. reflexivity.
Qed.


(** C4 at a process that may not change signal dispositions. *)
Lemma step_failure_raises_DaemonError_witness :
  exists before d,
    daemonize sample_repr false (started (platform "posix" signal_fails) 8 on_terminal) =
      before ++
      [(Raise (DaemonError
          "Error during daemonizing: ValueError('signal only works in main thread')"), d)] /\
    Forall (fun r : Outcome unit * Proc => r.1 = Exited 0) before.
Proof.
  destruct (step_failure_raises_DaemonError sample_repr false
              (started (platform "posix" signal_fails) 8 on_terminal)
              (Signal SIGHUP SIG_IGN)
              (OtherError "ValueError" "signal only works in main thread") eq_refl eq_refl)
    as (before & d & Hrun & Hb & _).
  exists before, d. split; [exact Hrun|exact Hb].
Defined.

(** C9 at a process whose second fork is refused. *)
Lemma fork_failure_wrapped_twice_witness :
  exists before d,
    daemonize sample_repr false (started (platform "posix" second_fork_fails) 8 on_terminal) =
      before ++
      [(Raise (DaemonError
          "Error during daemonizing: DaemonError('Cannot fork: Resource temporarily unavailable [11]')"),
        d)] /\
    Forall (fun r : Outcome unit * Proc => r.1 = Exited 0) before.
Proof.
  destruct (fork_failure_wrapped_twice sample_repr false
              (started (platform "posix" second_fork_fails) 8 on_terminal)
              11 "Resource temporarily unavailable" eq_refl eq_refl)
    as (before & d & Hrun & Hb & _).
  exists before, d. split; [exact Hrun|exact Hb].
Defined.

(** C5 at a process with umask 022 in a home directory. *)
Lemma successful_run_sets_umask_and_cwd_witness :
  Forall (fun r : Outcome unit * Proc =>
            r.1 = Ret tt -> umask r.2 = 63 /\ cwd r.2 = "/")
         (daemonize sample_repr false (started (platform "posix" no_fault) 8 on_terminal)) /\
  map fst (daemonize sample_repr false (started (platform "posix" no_fault) 8 on_terminal)) =
    [Exited 0; Exited 0; Ret tt].
Proof.
  split; [|vm_compute; reflexivity].
  apply (successful_run_sets_umask_and_cwd sample_repr false
           (started (platform "posix" no_fault) 8 on_terminal)). reflexivity.
Defined.

(** C6 on Windows. *)
Lemma daemonize_not_posix_witness :
  exists p',
    daemonize sample_repr false (started (platform "nt" no_fault) 8 on_terminal) =
      [(Ret tt, p')] /\
    trace p' = [] /\
    cwd p' = "/home/user" /\ umask p' = 18 /\
    fds p' = on_terminal /\
    length (logged p') = 1%nat.
Proof.
  destruct (daemonize_not_posix sample_repr false
              (started (platform "nt" no_fault) 8 on_terminal))
    as (p' & Hrun & Ht & _ & _ & Hc & Hu & _ & Hf & Hl).
  - discriminate.
  - exists p'. rewrite Hl. repeat split; assumption.
Defined.



(** * Further properties of the module *)

Section MoreProofs.

Variable repr : PyErr -> string.

(** ** What leaves [daemonize] *)


(** The cleanup never leaves through [os._exit]. *)
Lemma _redirectFileDescriptors_never_exits p o p' :
  _redirectFileDescriptors repr p = [(o, p')] -> forall s, o <> Exited s.
Proof.
  intros Hrun s. rewrite _redirectFileDescriptors_run in Hrun.
  destruct (fault (env p) (now p) Getrlimit); [by injection Hrun as <- _|].
  rewrite redirect_std_run in Hrun.
  repeat match type of Hrun with
         | context [match ?x with _ => _ end] => destruct x
         end; by injection Hrun as <- _.
Qed.

Lemma cleanup_never_exits no_close q o q' :
  try_except (cleanup repr no_close) (daemonize_handler repr) q = [(o, q')] ->
  forall s, o <> Exited s.
Proof.
  destruct no_close; cbn [cleanup negb].
  { intros [= <- _] s. discriminate. }
  destruct (_redirectFileDescriptors_spec repr q) as (o1 & q1 & calls & Hrun & _).
  rewrite (try_one _ _ _ _ Hrun). unfold handle_with. cbn [fst snd].
  pose proof (_redirectFileDescriptors_never_exits _ _ _ Hrun) as Hne.
  destruct o1 as [a|e|s1]; intros [= <- _] s; try discriminate.
  by destruct (Hne s1).
Qed.


(** X2. [daemonize] goes on in exactly one process: it ends in at most
    three, all but the last left through [os._exit(0)] with umask,
    working directory, descriptors and log as the caller had them, and
    the last one returns or raises. *)
Theorem exactly_one_process_continues no_close p :
  exists before r,
    daemonize repr no_close p = before ++ [r] /\
    (length before <= 2)%nat /\
    Forall (fun x : Outcome unit * Proc =>
              x.1 = Exited 0 /\ umask x.2 = umask p /\ cwd x.2 = cwd p /\
              fds x.2 = fds p /\ logged x.2 = logged p) before /\
    (forall s, r.1 <> Exited s).
Proof.
  destruct (decide (os_name (env p) = "posix")) as [Hposix|Hname].
  2:{ rewrite (daemonize_off_posix _ _ _ Hname). eexists [], _.
      split; [done|]. split; [cbn; lia|]. split; [constructor|]. discriminate. }
  rewrite (daemonize_run _ _ _ Hposix).
  destruct (cleanup_spec repr no_close (second_child p)) as (o & d & calls & Hrun & _).
  pose proof (cleanup_never_exits _ _ _ _ Hrun) as Hne. rewrite Hrun.
  destruct (fault (env p) (now p) Fork);
    [eexists [], _|
     destruct (fault (env p) (S (now p)) Setsid);
     [eexists [_], _|
      destruct (fault (env p) (S (S (now p))) (Signal SIGHUP SIG_IGN));
      [eexists [_], _|
       destruct (fault (env p) (S (S (S (now p)))) Fork);
       [eexists [_], _|
        destruct (fault (env p) (S (S (S (S (now p))))) (Umask UMASK));
        [eexists [_; _], _|
         destruct (fault (env p) (S (S (S (S (S (now p)))))) (Chdir WORKDIR));
         eexists [_; _], _]]]]].
  all: split; [reflexivity|]; split; [cbn; lia|]; split;
    [by repeat constructor|]; try discriminate; exact Hne.
Qed.



(** ** The descriptor cleanup, once more *)

Lemma env_scan_all l p : env (scan_all repr l p) = env p.
Proof.
  pose proof (scan_all_kept repr l p) as Hk. unfold kept in Hk.
  injection Hk as He _ _ _ _ _ _ _ _. exact He.
Qed.



(** What the loop logs: a record for a close that failed, nothing else. *)
Lemma scan_one_logged fd p :
  exists recs,
    logged (scan_one repr fd p) = logged p ++ recs /\
    Forall (fun r => logger r = "root" /\ level r = INFO) recs /\
    ((forall t k, fault (env p) t (Close k) = None) -> recs = []).
Proof.
  unfold scan_one.
  destruct (fault (env p) (now p) (Ttyname fd));
    [exists []; by rewrite app_nil_r|].
  destruct (fds p !! fd) as [[name|path]|];
    [|exists []; by rewrite app_nil_r|exists []; by rewrite app_nil_r].
  destruct (fault (env p) (S (now p)) (Close fd)) as [e|] eqn:Fc.
  - eexists [_]. split; [reflexivity|]. split; [by repeat constructor|].
    intros Hq. by rewrite Hq in Fc.
  - exists []. by rewrite app_nil_r.
Qed.

Lemma scan_all_logged l p :
  exists recs,
    logged (scan_all repr l p) = logged p ++ recs /\
    Forall (fun r => logger r = "root" /\ level r = INFO) recs /\
    ((forall t k, fault (env p) t (Close k) = None) -> recs = []).
Proof.
  revert p. induction l as [|fd l IH]; intros p.
  { exists []. by rewrite app_nil_r. }
  rewrite scan_all_cons.
  destruct (scan_one_logged fd p) as (r1 & Hl1 & Hf1 & Hq1).
  destruct (IH (scan_one repr fd p)) as (r2 & Hl2 & Hf2 & Hq2).
  assert (env (scan_one repr fd p) = env p) as Henv.
  { pose proof (scan_one_kept repr fd p) as Hk. unfold kept in Hk. congruence. }
  exists (r1 ++ r2). split; [by rewrite Hl2, Hl1, app_assoc|].
  split; [by apply Forall_app|].
  intros Hq. rewrite (Hq1 Hq), Hq2; [done|by rewrite Henv].
Qed.

(** The redirection of the standard descriptors logs nothing. *)
Lemma redirect_std_logged q o q' :
  redirect_std q = [(o, q')] -> logged q' = logged q.
Proof.
  rewrite redirect_std_run. intros Hrun.
  repeat match type of Hrun with
         | context [match ?x with _ => _ end] => destruct x
         end; by injection Hrun as _ <-.
Qed.



(** X3. Whatever fails in the cleanup, a descriptor from 3 on that is
    open on something other than a terminal, or that lies at or above the
    bound of the scan, still refers to the same file afterwards. *)
Theorem cleanup_keeps_files_out_of_reach p o p' k f :
  _redirectFileDescriptors repr p = [(o, p')] ->
  (3 <= k)%nat ->
  fds p !! k = Some f ->
  is_terminal (Some f) = false \/ scan_bound p <= Z.of_nat k ->
  fds p' !! k = Some f.
Proof.
  intros Hrun Hk Hf Hout. rewrite _redirectFileDescriptors_run in Hrun.
  destruct (fault (env p) (now p) Getrlimit); [by injection Hrun as _ <-|].
  set (q := scan_all repr (range 0 (scan_bound p)) (called Getrlimit p)) in Hrun.
  assert (fds q !! k = Some f) as Hq.
  { destruct (scan_all_spec repr (range 0 (scan_bound p)) (called Getrlimit p))
      as (_ & _ & _ & _ & _ & Hfds).
    destruct (Hfds k) as [Heq|(Hin & _ & Hterm)]; [unfold q; by rewrite Heq|].
    rewrite fds_called, Hf in Hterm.
    destruct Hout as [Hnt|Hge]; [congruence|].
    unfold range in Hin. apply elem_of_seq in Hin. lia. }
  assert (fds (open_null q) !! k = Some f) as Ho.
  { unfold open_null. cbn [fds set_fds].
    rewrite lookup_insert_ne; [done|].
    intros Heq. pose proof (lowest_free_is_free (fds q)) as Hfree.
    rewrite Heq, Hq in Hfree. discriminate. }
  rewrite redirect_std_run in Hrun.
  destruct (fault (env q) (now q) (Open (null_path q) O_RDWR));
    [by injection Hrun as _ <-|].
  destruct (fault (env q) (S (now q)) (Dup2 0 1)); [by injection Hrun as _ <-|].
  destruct (fds (open_null q) !! 0%nat) as [f0|]; [|by injection Hrun as _ <-].
  destruct (fault (env q) (S (S (now q))) (Dup2 0 2)); injection Hrun as _ <-.
  all: unfold dup_std; cbn [fds set_fds called set_trace];
    rewrite ?lookup_insert_ne by lia; done.
Qed.

(** X4. When the cleanup returns, descriptors 1 and 2 refer to what
    descriptor 0 refers to, whatever they were open on before; that is
    the null device, or else what descriptor 0 was open on before. *)
Theorem returned_cleanup_aliases_std_descriptors p p' :
  _redirectFileDescriptors repr p = [(Ret tt, p')] ->
  exists f,
    fds p' !! 0%nat = Some f /\
    fds p' !! 1%nat = Some f /\
    fds p' !! 2%nat = Some f /\
    (f = NonTerminal (null_path p) \/ fds p !! 0%nat = Some f).
Proof.
  intros Hrun. rewrite _redirectFileDescriptors_run in Hrun.
  destruct (fault (env p) (now p) Getrlimit); [discriminate|].
  set (q := scan_all repr (range 0 (scan_bound p)) (called Getrlimit p)) in Hrun.
  assert (env q = env p) as Hq by exact (env_scan_all _ (called Getrlimit p)).
  rewrite redirect_std_run in Hrun.
  destruct (fault (env q) (now q) (Open (null_path q) O_RDWR)); [discriminate|].
  destruct (fault (env q) (S (now q)) (Dup2 0 1)); [discriminate|].
  destruct (fds (open_null q) !! 0%nat) as [f|] eqn:H0; [|discriminate].
  destruct (fault (env q) (S (S (now q))) (Dup2 0 2)); [discriminate|].
  injection Hrun as <-. exists f.
  unfold dup_std. cbn [fds set_fds called set_trace].
  split; [by rewrite !lookup_insert_ne by lia|].
  split; [by rewrite lookup_insert_ne, lookup_insert_eq by lia|].
  split; [by rewrite lookup_insert_eq|].
  unfold open_null in H0. cbn [fds set_fds] in H0.
  destruct (decide (lowest_free (fds q) = 0%nat)) as [Hlow|Hlow].
  - left. rewrite Hlow, lookup_insert_eq in H0. injection H0 as <-.
    unfold null_path. by rewrite Hq.
  - right. rewrite lookup_insert_ne in H0 by done.
    destruct (scan_all_spec repr (range 0 (scan_bound p)) (called Getrlimit p))
      as (_ & _ & _ & _ & _ & Hfds).
    destruct (Hfds 0%nat) as [Heq|(_ & Hnone & _)].
    + by rewrite <- H0, <- fds_called with (c := Getrlimit), <- Heq.
    + unfold q in H0. congruence.
Qed.


(** X6. The cleanup logs INFO records on the root logger only, and none
    unless a close fails. *)
Theorem cleanup_logs_only_failed_closes p :
  exists o p' recs,
    _redirectFileDescriptors repr p = [(o, p')] /\
    logged p' = logged p ++ recs /\
    Forall (fun r => logger r = "root" /\ level r = INFO) recs /\
    ((forall t fd, fault (env p) t (Close fd) = None) -> recs = []).
Proof.
  destruct (_redirectFileDescriptors_spec repr p) as (o & p' & calls & Hrun & _).
  exists o, p'. rewrite Hrun. rewrite _redirectFileDescriptors_run in Hrun.
  destruct (fault (env p) (now p) Getrlimit).
  { injection Hrun as _ <-. exists []. by rewrite app_nil_r. }
  destruct (scan_all_logged (range 0 (scan_bound p)) (called Getrlimit p))
    as (recs & Hl & Hf & Hq).
  exists recs. split; [done|]. split; [|done].
  by rewrite (redirect_std_logged _ _ _ Hrun).
Qed.





(** ** The processes [daemonize] ends in *)

(** X8. [daemonize] changes no signal disposition but that of the hangup
    signal, in any process it ends in and whatever fails. *)
Theorem only_SIGHUP_disposition_changes no_close p :
  Forall (fun r : Outcome unit * Proc =>
            forall s, s <> SIGHUP -> sighandlers r.2 !! s = sighandlers p !! s)
         (daemonize repr no_close p).
Proof.
  destruct (decide (os_name (env p) = "posix")) as [Hposix|Hname].
  2:{ rewrite (daemonize_off_posix _ _ _ Hname). by repeat constructor. }
  rewrite (daemonize_run _ _ _ Hposix).
  destruct (cleanup_spec repr no_close (second_child p))
    as (o & d & calls & Hrun & _ & _ & _ & Hk & _).
  rewrite Hrun. unfold kept in Hk. injection Hk as _ _ _ _ _ Hs _ _ _.
  destruct (fault (env p) (now p) Fork);
    [|destruct (fault (env p) (S (now p)) Setsid);
      [|destruct (fault (env p) (S (S (now p))) (Signal SIGHUP SIG_IGN));
        [|destruct (fault (env p) (S (S (S (now p)))) Fork);
          [|destruct (fault (env p) (S (S (S (S (now p))))) (Umask UMASK));
            [|destruct (fault (env p) (S (S (S (S (S (now p)))))) (Chdir WORKDIR))]]]]].
  all: repeat constructor; intros s Hne; cbn [snd]; rewrite ?Hs; cbn;
    by rewrite ?lookup_insert_ne.
Qed.

(** X9. Where the kernel gives the second child a pid other than its
    living parent's, a process in which [daemonize] returns has no
    controlling terminal and is not the leader of its session: the leader
    is its parent, the first child. *)
Theorem daemon_is_not_a_session_leader no_close p :
  os_name (env p) = "posix" ->
  child_pid (env p) (S (S (S (now p)))) <> child_pid (env p) (now p) ->
  Forall (fun r : Outcome unit * Proc =>
            r.1 = Ret tt ->
            ctty r.2 = None /\ sid r.2 = ppid r.2 /\ sid r.2 <> pid r.2)
         (daemonize repr no_close p).
Proof.
  intros Hposix Hpid.
  destruct (first_fault (fault (env p)) (now p) steps) as [[c e]|] eqn:Hff.
  - destruct (daemonize_first_fault repr no_close p c e Hposix Hff) as (before & d & -> & Hb).
    apply Forall_app. split.
    + eapply Forall_impl; [exact Hb|]. intros r Hr. rewrite Hr. discriminate.
    + by repeat constructor.
  - rewrite (daemonize_steps _ _ _ Hposix Hff).
    destruct (cleanup_spec repr no_close (second_child p))
      as (o & d & calls & -> & _ & _ & _ & Hk & _).
    unfold kept in Hk. injection Hk as _ Hp Hpp Hs Hc _ _ _ _.
    constructor; [discriminate|]. constructor; [discriminate|].
    constructor; [|constructor]. intros _. cbn [snd]. rewrite Hp, Hpp, Hs, Hc.
    split; [done|]. split; [done|].
    unfold second_child, first_child, at_root, masked, hup_ignored, in_session, forked.
    cbn [pid sid set_cwd set_umask set_ids set_sighandlers set_session called set_trace env].
    autorewrite with clock. congruence.
Qed.

(** X10. When one of the steps 1 to 6 fails, every process [daemonize]
    ends in still has the caller's descriptors and working directory, and
    nothing was logged: the error can still be reported on the standard
    descriptors. *)
Theorem failed_step_keeps_descriptors_and_cwd no_close p c e :
  os_name (env p) = "posix" ->
  first_fault (fault (env p)) (now p) steps = Some (c, e) ->
  Forall (fun r : Outcome unit * Proc =>
            fds r.2 = fds p /\ cwd r.2 = cwd p /\ logged r.2 = logged p)
         (daemonize repr no_close p).
Proof.
  intros Hposix Hff. rewrite (daemonize_run _ _ _ Hposix).
  unfold steps in Hff. cbn [first_fault] in Hff.
  destruct (fault (env p) (now p) Fork);
    [|destruct (fault (env p) (S (now p)) Setsid);
      [|destruct (fault (env p) (S (S (now p))) (Signal SIGHUP SIG_IGN));
        [|destruct (fault (env p) (S (S (S (now p)))) Fork);
          [|destruct (fault (env p) (S (S (S (S (now p))))) (Umask UMASK));
            [|destruct (fault (env p) (S (S (S (S (S (now p)))))) (Chdir WORKDIR));
              [|discriminate]]]]]].
  all: by repeat constructor.
Qed.


End MoreProofs.

(** * The further properties on sample processes *)

(** X3 at a process with a log file on 3 and a terminal on 9, beyond the
    limit of 8, in which the open of the null device fails. *)
Lemma cleanup_keeps_files_out_of_reach_witness :
  exists o p',
    _redirectFileDescriptors sample_repr
      (started (platform "posix" open_fails) 8 terminal_beyond_limit) = [(o, p')] /\
    fds p' !! 9%nat = Some pts0.
Proof.
  eexists _, _. split; [vm_compute; reflexivity|].
  apply (cleanup_keeps_files_out_of_reach sample_repr
           (started (platform "posix" open_fails) 8 terminal_beyond_limit)
           (Raise (OSError 2 "No such file or directory")) _ 9 pts0).
  - vm_compute. reflexivity.
  - lia.
  - vm_compute. reflexivity.
  - right. vm_compute. discriminate.
Defined.

(** X4 at a process whose standard input is a file. *)
Lemma returned_cleanup_aliases_std_descriptors_witness :
  exists p' f,
    _redirectFileDescriptors sample_repr
      (started (platform "posix" no_fault) 8 stdin_from_file) = [(Ret tt, p')] /\
    fds p' !! 0%nat = Some f /\ fds p' !! 1%nat = Some f /\ fds p' !! 2%nat = Some f.
Proof.
  eexists.
  assert (_redirectFileDescriptors sample_repr
            (started (platform "posix" no_fault) 8 stdin_from_file) = [(Ret tt, _)]) as Hrun
    by (vm_compute; reflexivity).
  destruct (returned_cleanup_aliases_std_descriptors sample_repr _ _ Hrun)
    as (f & H0 & H1 & H2 & _).
  exists f. split; [exact Hrun|]. split; [exact H0|]. split; [exact H1|exact H2].
Defined.



(** X9 at a process started on a terminal. *)
Lemma daemon_is_not_a_session_leader_witness :
  Forall (fun r : Outcome unit * Proc =>
            r.1 = Ret tt ->
            ctty r.2 = None /\ sid r.2 = ppid r.2 /\ sid r.2 <> pid r.2)
         (daemonize sample_repr true (started (platform "posix" no_fault) 8 on_terminal)) /\
  map (fun r : Outcome unit * Proc => (r.1, pid r.2, ppid r.2, sid r.2))
      (daemonize sample_repr true (started (platform "posix" no_fault) 8 on_terminal)) =
    [(Exited 0, 42, 7, 7); (Exited 0, 100, 42, 100); (Ret tt, 103, 100, 100)].
Proof.
  split; [|vm_compute; reflexivity].
  apply (daemon_is_not_a_session_leader sample_repr true
           (started (platform "posix" no_fault) 8 on_terminal)).
  - reflexivity.
  - vm_compute. discriminate.
Defined.

(** X10 at a process that may not change signal dispositions. *)
Lemma failed_step_keeps_descriptors_and_cwd_witness :
  Forall (fun r : Outcome unit * Proc =>
            fds r.2 = on_terminal /\ cwd r.2 = "/home/user" /\ logged r.2 = [])
         (daemonize sample_repr false (started (platform "posix" signal_fails) 8 on_terminal)).
Proof.
  apply (failed_step_keeps_descriptors_and_cwd sample_repr false
           (started (platform "posix" signal_fails) 8 on_terminal)
           (Signal SIGHUP SIG_IGN)
           (OtherError "ValueError" "signal only works in main thread"));
    reflexivity.
Defined.

